(** * catcollector: the request handlers of [main_app/views.py]

    A shallow embedding of the Django views of the cat collector and the
    properties its specification states about them.  The relational tables
    are finite maps from primary keys to rows, the cat/toy junction table is
    a finite set of pairs, and a view is a state transformer over the
    database, the session store and the storage bucket that either returns
    a response or raises. *)

From Stdlib Require Import ZArith String Ascii.
From stdpp Require Import gmap strings list fin_maps.

Local Open Scope string_scope.
Local Open Scope Z_scope.

(** ** Python strings and integers *)

Module Py.

(** [s.rfind(c)]: the highest index of [c] in [s], or [-1]. *)
Fixpoint rfind_from (c : ascii) (s : string) (i last : Z) : Z :=
  match s with
  | EmptyString => last
  | String a s' => rfind_from c s' (i + 1) (if Ascii.eqb a c then i else last)
  end.

Definition rfind (c : ascii) (s : string) : Z := rfind_from c s 0 (-1).

Fixpoint drop (n : nat) (s : string) : string :=
  match n, s with
  | O, _ => s
  | S _, EmptyString => EmptyString
  | S n', String _ s' => drop n' s'
  end.

Fixpoint take (n : nat) (s : string) : string :=
  match n, s with
  | O, _ => EmptyString
  | S _, EmptyString => EmptyString
  | S n', String a s' => String a (take n' s')
  end.

Definition len (s : string) : Z := Z.of_nat (String.length s).

(** A slice bound is clamped to [0 .. len s]; a negative one counts from
    the end. *)
Definition clamp (s : string) (i : Z) : nat :=
  Z.to_nat (if i <? 0 then Z.max 0 (len s + i) else Z.min i (len s)).

(** [s[i:]] *)
Definition slice_from (s : string) (i : Z) : string := drop (clamp s i) s.

(** [s[:j]] *)
Definition slice_to (s : string) (j : Z) : string := take (clamp s j) s.

Definition hexchar (d : Z) : ascii :=
  match d with
  | 0 => "0" | 1 => "1" | 2 => "2" | 3 => "3" | 4 => "4" | 5 => "5"
  | 6 => "6" | 7 => "7" | 8 => "8" | 9 => "9" | 10 => "a" | 11 => "b"
  | 12 => "c" | 13 => "d" | 14 => "e" | _ => "f"
  end%char.

(** ['%0nx' % v] for [0 <= v < 16^n]: the [n] low hexadecimal digits of
    [v], most significant first, in front of [acc]. *)
Fixpoint hex_digits (n : nat) (v : Z) (acc : string) : string :=
  match n with
  | O => acc
  | S n' => hex_digits n' (v / 16) (String (hexchar (v mod 16)) acc)
  end.

(** [c in s] *)
Fixpoint contains (c : ascii) (s : string) : bool :=
  match s with
  | EmptyString => false
  | String a s' => Ascii.eqb a c || contains c s'
  end.

(** [uuid.uuid4()] on sixteen random bytes read as the integer [r]:
    [UUID(bytes=os.urandom(16), version=4)] clears and sets the variant
    and version bits. *)
Definition uuid4 (r : Z) : Z :=
  let i := Z.land r (Z.lnot (Z.shiftl 0xc000 48)) in
  let i := Z.lor i (Z.shiftl 0x8000 48) in
  let i := Z.land i (Z.lnot (Z.shiftl 0xf000 64)) in
  Z.lor i (Z.shiftl 4 76).

(** [UUID.hex]: ['%032x' % self.int] *)
Definition hex (u : Z) : string := hex_digits 32 u "".

End Py.

(** ** Rows of the relational schema *)

Inductive Meal := Breakfast | Lunch | Dinner.

Record Date := mkDate { year : Z; month : Z; day : Z }.

Record User := mkUser { username : string; password : string }.

Record Cat := mkCat {
  cat_name : string;
  cat_breed : string;
  cat_description : string;
  cat_age : Z;
  cat_user : Z
}.

Record Feeding := mkFeeding {
  feeding_date : Date;
  feeding_meal : Meal;
  feeding_cat_id : Z
}.

Record Toy := mkToy { toy_name : string; toy_color : string }.

Record Photo := mkPhoto { photo_url : string; photo_cat_id : Z }.

(** The database: one map per table, keyed by primary key, and the
    [Cat_Toy(cat_id, toy_id)] junction table as a set of pairs. *)
Record DB := mkDB {
  users : gmap Z User;
  cats : gmap Z Cat;
  feedings : gmap Z Feeding;
  toys : gmap Z Toy;
  cat_toy : gset (Z * Z);
  photos : gmap Z Photo
}.

(** What a request can read and change: the database, the user recorded in
    the client's session, the objects held by the storage service as
    (bucket, key) pairs, and the two things the environment decides: the
    random bytes behind the next [uuid4()] and whether the storage service
    accepts the next upload. *)
Record World := mkWorld {
  db : DB;
  session : option Z;
  s3_objects : gset (string * string);
  urandom16 : Z;
  s3_accepts : bool
}.

Record UploadedFile := mkFile { file_name : string; file_bytes : list Z }.

Inductive Method := GET | POST.

Record Request := mkRequest {
  method : Method;
  user : option Z;
  POST_data : gmap string string;
  FILES : gmap string UploadedFile
}.

(** ** Responses *)

Inductive Url :=
  | url_cat_detail (cat_id : Z)      (* the route named 'cat_detail' *)
  | url_cats_index                   (* the route named 'cats_index' *)
  | url_login                        (* settings.LOGIN_URL *)
  | url_path (path : string)         (* a literal success_url *)
  | url_cat_absolute (pk : Z).       (* Cat.get_absolute_url() *)

(** A Django form object: built without data, or bound to submitted data. *)
Inductive Form :=
  | Unbound
  | Bound (data : gmap string string).

(** The dictionary handed to the template. *)
Inductive Context :=
  | ctx_none
  | ctx_cats (cats : list (Z * Cat))
  | ctx_detail (cat : Z * Cat) (feeding_form : Form) (toys : list (Z * Toy))
  | ctx_signup (form : Form) (error : string)
  | ctx_edit (form : Form) (object : option Z).

Inductive Response :=
  | render (template_name : string) (context : Context)
  | redirect (to : Url).

(** ** Views as state transformers that may raise *)

Inductive Exn :=
  | DoesNotExist
  | IntegrityError
  | AttributeError
  | TypeError
  | S3UploadFailedError
  | Http404.

Definition View (A : Type) : Type := World -> (Exn + A) * World.

Definition ret {A} (a : A) : View A := fun w => (inr a, w).

Definition raise {A} (e : Exn) : View A := fun w => (inl e, w).

Definition bind {A B} (m : View A) (k : A -> View B) : View B :=
  fun w =>
    match m w with
    | (inr a, w') => k a w'
    | (inl e, w') => (inl e, w')
    end.

(** [try: m  except Exception as error: handler error] *)
Definition try_except {A} (m : View A) (handler : Exn -> View A) : View A :=
  fun w =>
    match m w with
    | (inl e, w') => handler e w'
    | r => r
    end.

Definition get_db : View DB := fun w => (inr (db w), w).

Definition modify_db (f : DB -> DB) : View unit :=
  fun w => (inr tt, mkWorld (f (db w)) (session w) (s3_objects w) (urandom16 w) (s3_accepts w)).

Notation "'let*' x ':=' m 'in' k" := (bind m (fun x => k))
  (at level 10, x name, m at level 100, k at level 200).
Notation "m ';;' k" := (bind m (fun _ => k))
  (at level 100, k at level 200, right associativity).

(** ** The object-relational layer *)

Definition set_users (m : gmap Z User) (d : DB) : DB :=
  mkDB m (cats d) (feedings d) (toys d) (cat_toy d) (photos d).
Definition set_cats (m : gmap Z Cat) (d : DB) : DB :=
  mkDB (users d) m (feedings d) (toys d) (cat_toy d) (photos d).
Definition set_feedings (m : gmap Z Feeding) (d : DB) : DB :=
  mkDB (users d) (cats d) m (toys d) (cat_toy d) (photos d).
Definition set_cat_toy (s : gset (Z * Z)) (d : DB) : DB :=
  mkDB (users d) (cats d) (feedings d) (toys d) s (photos d).
Definition set_photos (m : gmap Z Photo) (d : DB) : DB :=
  mkDB (users d) (cats d) (feedings d) (toys d) (cat_toy d) m.

(** The key an auto-incrementing primary key column gives the next row. *)
Definition next_pk {A} (table : gmap Z A) : Z :=
  1 + foldr Z.max 0 (map_to_list table).*1.

(** [Model.objects.get(id=pk)] *)
Definition objects_get {A} (table : DB -> gmap Z A) (pk : Z) : View A :=
  let* d := get_db in
  match table d !! pk with
  | Some row => ret row
  | None => raise DoesNotExist
  end.

(** [Cat.objects.filter(user=u)] *)
Definition Cat_objects_filter_user (u : Z) : View (list (Z * Cat)) :=
  let* d := get_db in
  ret (map_to_list (filter (fun kc => cat_user kc.2 = u) (cats d))).

(** [cat.toy.all().values_list('id')] *)
Definition toy_ids_of (cat_id : Z) (d : DB) : gset Z :=
  set_map snd (filter (fun ct => ct.1 = cat_id) (cat_toy d)).

(** [Toy.objects.exclude(id__in=ids)] *)
Definition Toy_objects_exclude (ids : gset Z) : View (list (Z * Toy)) :=
  let* d := get_db in
  ret (map_to_list (filter (fun kt => kt.1 ∉ ids) (toys d))).

(** [cat.toy.add(toy_id)]: the related manager inserts the junction rows
    that are missing; the row's foreign key to the toy table is checked by
    the database. *)
Definition toy_add (cat_id toy_id : Z) : View unit :=
  let* d := get_db in
  if decide ((cat_id, toy_id) ∈ cat_toy d) then ret tt
  else match toys d !! toy_id with
       | Some _ => modify_db (fun d => set_cat_toy ({[ (cat_id, toy_id) ]} ∪ cat_toy d) d)
       | None => raise IntegrityError
       end.

(** [cat.toy.remove(toy_id)]: deletes the junction rows that match. *)
Definition toy_remove (cat_id toy_id : Z) : View unit :=
  modify_db (fun d => set_cat_toy (cat_toy d ∖ {[ (cat_id, toy_id) ]}) d).

(** [feeding.save()] of a new row; the foreign key to the cat table is
    checked by the database. *)
Definition Feeding_save (f : Feeding) : View unit :=
  let* d := get_db in
  match cats d !! feeding_cat_id f with
  | Some _ => modify_db (fun d => set_feedings (<[next_pk (feedings d) := f]> (feedings d)) d)
  | None => raise IntegrityError
  end.

(** Modelled from the spec: models.py is not among the sources; the data
    model of the spec declares no manager of its own for any entity, so a
    model class carries the one manager Django gives it, under the
    attribute [objects].  Any other attribute name is an [AttributeError]. *)
Definition model_manager (attr : string) : View unit :=
  if String.eqb attr "objects" then ret tt else raise AttributeError.

(** [<manager>.create(url=url, cat_id=cat_id)] on the photo table. *)
Definition Photo_create (url : string) (cat_id : Z) : View unit :=
  let* d := get_db in
  match cats d !! cat_id with
  | Some _ => modify_db (fun d => set_photos (<[next_pk (photos d) := mkPhoto url cat_id]> (photos d)) d)
  | None => raise IntegrityError
  end.

(** [login(request, user)]: records the user in the session. *)
Definition login (uid : Z) : View unit :=
  fun w => (inr tt, mkWorld (db w) (Some uid) (s3_objects w) (urandom16 w) (s3_accepts w)).

(** [uuid.uuid4().hex] *)
Definition uuid4_hex : View string :=
  fun w => (inr (Py.hex (Py.uuid4 (urandom16 w))), w).

(** [s3.upload_fileobj(file, bucket, key)] *)
Definition upload_fileobj (f : UploadedFile) (bucket key : string) : View unit :=
  fun w =>
    if s3_accepts w
    then (inr tt, mkWorld (db w) (session w) ({[ (bucket, key) ]} ∪ s3_objects w)
                          (urandom16 w) (s3_accepts w))
    else (inl S3UploadFailedError, w).

(** [@login_required] *)
Definition login_required (view : Request -> View Response) (request : Request)
  : View Response :=
  match user request with
  | Some _ => view request
  | None => ret (redirect url_login)
  end.

(** ** Forms *)

(** Modelled from the spec: models.py and forms.py are not among the
    sources.  The data model of the spec gives a cat a text [name], [breed]
    and [description] and an integer [age], and a feeding a [date]; Django
    derives one form field from each, and validating a field maps the
    submitted value ([None] when the key is absent) to the cleaned value, or
    fails.  The sign-up form is Django's [UserCreationForm], which validates
    against the users already stored and yields the user to create. *)
Record FormFields := mkFormFields {
  name_clean : option string -> option string;
  breed_clean : option string -> option string;
  description_clean : option string -> option string;
  age_clean : option string -> option Z;
  date_clean : option string -> option Date;
  UserCreationForm_clean : gmap Z User -> gmap string string -> option User
}.

(** Modelled from the spec: the meal of a feeding is one of Breakfast, Lunch
    and Dinner; the comment in [add_feeding] shows the submitted code of a
    meal to be its initial. *)
Definition meal_clean (v : option string) : option Meal :=
  match v with
  | Some "B" => Some Breakfast
  | Some "L" => Some Lunch
  | Some "D" => Some Dinner
  | _ => None
  end.

(** ** The views *)

Definition S3_BASE_URL : string := "https://s3.us-east-2.amazonaws.com/".
Definition BUCKET : string := "djangocatcollectorproject".

(** [uuid.uuid4().hex[:6] + name[name.rfind('.'):]] *)
Definition object_key (hex name : string) : string :=
  Py.slice_to hex 6 ++ Py.slice_from name (Py.rfind "." name).

(** The random part of a key, as a function of the sixteen random bytes
    behind the UUID: [uuid.uuid4().hex[:6]]. *)
Definition token (r : Z) : string := Py.slice_to (Py.hex (Py.uuid4 r)) 6.

(** The token carries at least [n] bits: there are [2^n] draws of the random
    bytes that give pairwise different tokens. *)
Definition token_carries_bits (n : Z) : Prop :=
  exists draw : Z -> Z,
    (forall a, 0 <= a < 2 ^ n -> 0 <= draw a < 2 ^ 128)
    /\ (forall a b, 0 <= a < 2 ^ n -> 0 <= b < 2 ^ n ->
          token (draw a) = token (draw b) -> a = b).

(** [f"{S3_BASE_URL}{BUCKET}/{key}"] *)
Definition photo_url_of (key : string) : string :=
  S3_BASE_URL ++ BUCKET ++ "/" ++ key.

(** [bool(photo_file)]: an uploaded file is true when it has a name. *)
Definition file_truthy (f : UploadedFile) : bool :=
  negb (String.eqb (file_name f) "").

Section Views.

Variable F : FormFields.

(** Modelled from the spec: [FeedingForm] of forms.py, a model form over
    the [date] and [meal] of a feeding ([createFeeding(catId, date, meal)]);
    the cat is not a field of it. *)
Definition FeedingForm_clean (data : gmap string string) : option (Date * Meal) :=
  match date_clean F (data !! "date"), meal_clean (data !! "meal") with
  | Some d, Some m => Some (d, m)
  | _, _ => None
  end.

(** The model form of [CatUpdate]: [fields = ('description', 'age')]. *)
Definition CatUpdate_clean (data : gmap string string) : option (string * Z) :=
  match description_clean F (data !! "description"), age_clean F (data !! "age") with
  | Some d, Some a => Some (d, a)
  | _, _ => None
  end.

(** The model form of [CatCreate]:
    [fields = ('name', 'breed', 'description', 'age')]. *)
Definition CatCreate_clean (data : gmap string string)
  : option (string * string * string * Z) :=
  match name_clean F (data !! "name"), breed_clean F (data !! "breed"),
        description_clean F (data !! "description"), age_clean F (data !! "age") with
  | Some n, Some b, Some d, Some a => Some (n, b, d, a)
  | _, _, _, _ => None
  end.

Definition home (request : Request) : View Response :=
  ret (render "home.html" ctx_none).

Definition about (request : Request) : View Response :=
  ret (render "about.html" ctx_none).

Definition cats_index_body (request : Request) : View Response :=
  match user request with
  | Some u =>
      let* cats := Cat_objects_filter_user u in
      ret (render "cats/index.html" (ctx_cats cats))
  | None => raise TypeError
  end.

Definition cats_index := login_required cats_index_body.

Definition cat_detail_body (cat_id : Z) (request : Request) : View Response :=
  let* cat := objects_get cats cat_id in
  let feeding_form := Unbound in
  let* d := get_db in
  let cat_toy_ids := toy_ids_of cat_id d in
  let* toys_cat_doesnt_have := Toy_objects_exclude cat_toy_ids in
  ret (render "cats/detail.html"
         (ctx_detail (cat_id, cat) feeding_form toys_cat_doesnt_have)).

Definition cat_detail (request : Request) (cat_id : Z) :=
  login_required (cat_detail_body cat_id) request.

Definition add_feeding_body (cat_id : Z) (request : Request) : View Response :=
  (match FeedingForm_clean (POST_data request) with
   | Some (date, meal) =>
       (* form.save(commit=False); new_feeding.cat_id = cat_id *)
       let new_feeding := mkFeeding date meal cat_id in
       Feeding_save new_feeding
   | None => ret tt
   end) ;;
  ret (redirect (url_cat_detail cat_id)).

Definition add_feeding (request : Request) (cat_id : Z) :=
  login_required (add_feeding_body cat_id) request.

Definition assoc_toy_body (cat_id toy_id : Z) (request : Request) : View Response :=
  let* cat := objects_get cats cat_id in
  toy_add cat_id toy_id ;;
  ret (redirect (url_cat_detail cat_id)).

Definition assoc_toy (request : Request) (cat_id toy_id : Z) :=
  login_required (assoc_toy_body cat_id toy_id) request.

Definition unassoc_toy_body (cat_id toy_id : Z) (request : Request) : View Response :=
  let* cat := objects_get cats cat_id in
  toy_remove cat_id toy_id ;;
  ret (redirect (url_cat_detail cat_id)).

Definition unassoc_toy (request : Request) (cat_id toy_id : Z) :=
  login_required (unassoc_toy_body cat_id toy_id) request.

Definition signup (request : Request) : View Response :=
  let error_message := "" in
  let* error_message :=
    match method request with
    | POST =>
        let* d := get_db in
        match UserCreationForm_clean F (users d) (POST_data request) with
        | Some new_user =>
            let uid := next_pk (users d) in
            modify_db (fun d => set_users (<[uid := new_user]> (users d)) d) ;;
            login uid ;;
            ret (inl (redirect url_cats_index))
        | None => ret (inr "Invalid sign up - try again")
        end
    | GET => ret (inr error_message)
    end in
  match error_message with
  | inl response => ret response
  | inr error_message =>
      let form := Unbound in
      ret (render "registration/signup.html" (ctx_signup form error_message))
  end.

(** The attribute of the [Photo] class that [add_photo] reads the manager
    from is a parameter here; the view of the source is [add_photo]
    below. *)
Definition add_photo_via (manager_attr : string) (request : Request) (cat_id : Z)
  : View Response :=
  let photo_file := FILES request !! "photo-file" in
  (match photo_file with
   | Some photo_file =>
       if file_truthy photo_file then
         let* hex := uuid4_hex in
         let key := object_key hex (file_name photo_file) in
         try_except
           (upload_fileobj photo_file BUCKET key ;;
            let url := photo_url_of key in
            model_manager manager_attr ;;
            Photo_create url cat_id)
           (fun error => ret tt)
       else ret tt
   | None => ret tt
   end) ;;
  ret (redirect (url_cat_detail cat_id)).

(** [Photo.object.create(url=url, cat_id=cat_id)] *)
Definition add_photo := add_photo_via "object".

(** [LoginRequiredMixin.dispatch] *)
Definition LoginRequiredMixin (dispatch : Request -> View Response)
  (request : Request) : View Response :=
  match user request with
  | Some _ => dispatch request
  | None => ret (redirect url_login)
  end.

(** [SingleObjectMixin.get_object] *)
Definition get_object (pk : Z) : View Cat :=
  try_except (objects_get cats pk) (fun _ => raise Http404).

Definition CatCreate_dispatch (request : Request) : View Response :=
  match method request with
  | GET => ret (render "cats/cat_form.html" (ctx_edit Unbound None))
  | POST =>
      match CatCreate_clean (POST_data request), user request with
      | Some (n, b, d, a), Some u =>
          (* form_valid: form.instance.user = self.request.user *)
          let* database := get_db in
          let pk := next_pk (cats database) in
          modify_db (fun db => set_cats (<[pk := mkCat n b d a u]> (cats db)) db) ;;
          ret (redirect (url_cat_absolute pk))
      | Some _, None => raise TypeError
      | None, _ =>
          ret (render "cats/cat_form.html" (ctx_edit (Bound (POST_data request)) None))
      end
  end.

Definition CatCreate := LoginRequiredMixin CatCreate_dispatch.

Definition CatUpdate_dispatch (pk : Z) (request : Request) : View Response :=
  let* object := get_object pk in
  match method request with
  | GET => ret (render "cats/cat_form.html" (ctx_edit Unbound (Some pk)))
  | POST =>
      match CatUpdate_clean (POST_data request) with
      | Some (description, age) =>
          let updated :=
            mkCat (cat_name object) (cat_breed object) description age (cat_user object) in
          modify_db (fun db => set_cats (<[pk := updated]> (cats db)) db) ;;
          ret (redirect (url_cat_absolute pk))
      | None =>
          ret (render "cats/cat_form.html" (ctx_edit (Bound (POST_data request)) (Some pk)))
      end
  end.

Definition CatUpdate (request : Request) (pk : Z) :=
  LoginRequiredMixin (CatUpdate_dispatch pk) request.

(** Deleting a cat deletes the rows that refer to it. *)
Definition delete_cat (pk : Z) (d : DB) : DB :=
  mkDB (users d)
       (delete pk (cats d))
       (filter (fun kf => feeding_cat_id kf.2 ≠ pk) (feedings d))
       (toys d)
       (filter (fun ct => ct.1 ≠ pk) (cat_toy d))
       (filter (fun kp => photo_cat_id kp.2 ≠ pk) (photos d)).

Definition CatDelete_dispatch (pk : Z) (request : Request) : View Response :=
  let* object := get_object pk in
  match method request with
  | GET => ret (render "cats/cat_confirm_delete.html" (ctx_edit Unbound (Some pk)))
  | POST =>
      modify_db (delete_cat pk) ;;
      ret (redirect (url_path "/cats/"))
  end.

Definition CatDelete (request : Request) (pk : Z) :=
  LoginRequiredMixin (CatDelete_dispatch pk) request.

(** Modelled from the spec: urls.py is not among the sources; these are
    the cat-scoped routes of the spec's route table and the view each one
    names. *)
Inductive CatRoute :=
  | route_cats_index
  | route_cat_detail (cat_id : Z)
  | route_add_feeding (cat_id : Z)
  | route_assoc_toy (cat_id toy_id : Z)
  | route_unassoc_toy (cat_id toy_id : Z)
  | route_add_photo (cat_id : Z)
  | route_cat_create
  | route_cat_update (pk : Z)
  | route_cat_delete (pk : Z).

Definition resolve (route : CatRoute) (request : Request) : View Response :=
  match route with
  | route_cats_index => cats_index request
  | route_cat_detail cat_id => cat_detail request cat_id
  | route_add_feeding cat_id => add_feeding request cat_id
  | route_assoc_toy cat_id toy_id => assoc_toy request cat_id toy_id
  | route_unassoc_toy cat_id toy_id => unassoc_toy request cat_id toy_id
  | route_add_photo cat_id => add_photo request cat_id
  | route_cat_create => CatCreate request
  | route_cat_update pk => CatUpdate request pk
  | route_cat_delete pk => CatDelete request pk
  end.

End Views.


(** ** A concrete instance

    Field validation that is simple enough to run: text fields are
    required, an age is a run of decimal digits, a date is written
    [YYYY-MM-DD], and a sign-up needs a user name that is free and the same
    password twice. *)

Module Example.

Definition required (v : option string) : option string :=
  match v with
  | Some s => if String.eqb s "" then None else Some s
  | None => None
  end.

Definition digit (c : ascii) : option Z :=
  let n := Z.of_N (N_of_ascii c) in
  if (48 <=? n) && (n <=? 57) then Some (n - 48) else None.

Fixpoint digits (s : string) (acc : Z) : option Z :=
  match s with
  | EmptyString => Some acc
  | String c s' =>
      match digit c with
      | Some d => digits s' (10 * acc + d)
      | None => None
      end
  end.

Definition decimal (v : option string) : option Z :=
  match v with
  | Some (String c s) => digits (String c s) 0
  | _ => None
  end.

Definition iso_date (v : option string) : option Date :=
  match v with
  | Some s =>
      if (String.length s =? 10)%nat
         && String.eqb (substring 4 1 s) "-" && String.eqb (substring 7 1 s) "-"
      then
        match digits (substring 0 4 s) 0, digits (substring 5 2 s) 0,
              digits (substring 8 2 s) 0 with
        | Some y, Some m, Some d =>
            if (1 <=? m) && (m <=? 12) && (1 <=? d) && (d <=? 31)
            then Some (mkDate y m d) else None
        | _, _, _ => None
        end
      else None
  | None => None
  end.

Definition username_taken (stored : gmap Z User) (name : string) : bool :=
  bool_decide (Exists (fun ku => username ku.2 = name) (map_to_list stored)).

Definition user_creation (stored : gmap Z User) (data : gmap string string)
  : option User :=
  match data !! "username", data !! "password1", data !! "password2" with
  | Some u, Some p1, Some p2 =>
      if negb (String.eqb u "") && negb (String.eqb p1 "") && String.eqb p1 p2
         && negb (username_taken stored u)
      then Some (mkUser u p1) else None
  | _, _, _ => None
  end.

Definition fields : FormFields :=
  mkFormFields required required required decimal iso_date user_creation.

Definition database : DB :=
  mkDB {[ 1 := mkUser "alice" "pw-alice"; 2 := mkUser "bob" "pw-bob" ]}
       {[ 1 := mkCat "Tom" "Tabby" "lazy" 3 1; 2 := mkCat "Rex" "Siamese" "loud" 4 2 ]}
       ∅
       {[ 1 := mkToy "Ball" "red"; 2 := mkToy "Mouse" "grey" ]}
       {[ (1, 1) ]}
       ∅.

Definition world : World :=
  mkWorld database None ∅ 0x0123456789abcdef0123456789abcdef true.

Definition alice_get : Request := mkRequest GET (Some 1) ∅ ∅.

Definition alice_post (data : gmap string string) : Request :=
  mkRequest POST (Some 1) data ∅.

Definition anonymous_upload : Request :=
  mkRequest POST None ∅ {[ "photo-file" := mkFile "cat.png" [137; 80; 78; 71] ]}.

Definition alice_upload : Request :=
  mkRequest POST (Some 1) ∅ {[ "photo-file" := mkFile "cat.png" [137; 80; 78; 71] ]}.


Definition good_signup : Request :=
  mkRequest POST None
    {[ "username" := "carol"; "password1" := "s3cret"; "password2" := "s3cret" ]} ∅.

End Example.

(** * Properties *)

(** ** The monad and the tables *)

Ltac unfold_view :=
  unfold login_required, LoginRequiredMixin, get_object, objects_get, try_except,
    modify_db, get_db, bind, ret, raise in *.

Lemma foldr_max_ge (l : list Z) (k : Z) : k ∈ l -> k <= foldr Z.max 0 l.
Proof.
  induction l as [|a l IH]; intros Hin.
  - by apply elem_of_nil in Hin.
  - apply elem_of_cons in Hin as [->|Hin]; simpl; [lia|].
    specialize (IH Hin). lia.
Qed.

(** The next primary key is not in use. *)
Lemma next_pk_fresh {A} (table : gmap Z A) : table !! next_pk table = None.
Proof.
  destruct (table !! next_pk table) as [row|] eqn:Hrow; [|done].
  exfalso.
  assert (next_pk table ∈ (map_to_list table).*1) as Hin.
  { apply list_elem_of_fmap. exists (next_pk table, row). split; [done|].
    by apply elem_of_map_to_list. }
  apply foldr_max_ge in Hin. unfold next_pk in Hin at 1. lia.
Qed.

Lemma login_required_anonymous view request w :
  user request = None -> login_required view request w = (inr (redirect url_login), w).
Proof. intros H. unfold login_required. by rewrite H. Qed.

Lemma login_required_authenticated view request w :
  is_Some (user request) -> login_required view request w = view request w.
Proof. intros [u H]. unfold login_required. by rewrite H. Qed.

(** ** The cat listing *)

(** C4: the listing returned to a user holds exactly the cats that user
    owns, so a cat owned by another user never appears in it. *)
Theorem cats_index_lists_own_cats (request : Request) (w : World) (u2 : Z) :
  user request = Some u2 ->
  exists listing : list (Z * Cat),
    cats_index request w = (inr (render "cats/index.html" (ctx_cats listing)), w)
    /\ (forall pk cat, (pk, cat) ∈ listing <-> cats (db w) !! pk = Some cat /\ cat_user cat = u2)
    /\ (forall u1 pk cat, u1 ≠ u2 -> cat_user cat = u1 -> (pk, cat) ∉ listing).
Proof.
  intros Hu.
  exists (map_to_list (filter (fun kc => cat_user kc.2 = u2) (cats (db w)))).
  assert (forall pk cat,
    (pk, cat) ∈ map_to_list (filter (fun kc => cat_user kc.2 = u2) (cats (db w)))
    <-> cats (db w) !! pk = Some cat /\ cat_user cat = u2) as Hiff.
  { intros pk cat. rewrite elem_of_map_to_list. apply map_lookup_filter_Some. }
  split; [|split].
  - unfold cats_index, login_required, cats_index_body. rewrite Hu. reflexivity.
  - exact Hiff.
  - intros u1 pk cat Hne Hown Hin. apply Hiff in Hin as [_ Hu2]. congruence.
Qed.

Lemma cats_index_lists_own_cats_witness :
  exists listing : list (Z * Cat),
    cats_index Example.alice_get Example.world
      = (inr (render "cats/index.html" (ctx_cats listing)), Example.world)
    /\ (forall pk cat, (pk, cat) ∈ listing
          <-> cats (db Example.world) !! pk = Some cat /\ cat_user cat = 1)
    /\ (forall u1 pk cat, u1 ≠ 1 -> cat_user cat = u1 -> (pk, cat) ∉ listing).
Proof. apply (cats_index_lists_own_cats Example.alice_get Example.world 1). reflexivity. Defined.

(** ** Feedings *)

Lemma FeedingForm_invalid (F : FormFields) (data : gmap string string) :
  FeedingForm_clean F data = None
  <-> date_clean F (data !! "date") = None \/ meal_clean (data !! "meal") = None.
Proof.
  unfold FeedingForm_clean.
  destruct (date_clean F (data !! "date")), (meal_clean (data !! "meal"));
    intuition discriminate.
Qed.

Lemma meal_clean_Some (v : option string) (m : Meal) :
  meal_clean v = Some m
  <-> (v = Some "B" /\ m = Breakfast) \/ (v = Some "L" /\ m = Lunch)
      \/ (v = Some "D" /\ m = Dinner).
Proof.
  split.
  - unfold meal_clean. intros H.
    repeat match type of H with
           | match ?x with _ => _ end = _ => destruct x; try discriminate
           end; naive_solver.
  - intros [[-> ->]|[[-> ->]|[-> ->]]]; reflexivity.
Qed.

(** C5: a feeding submission that does not validate (a meal outside
    Breakfast, Lunch, Dinner, or a date that does not parse) creates no
    feeding and changes nothing, and the handler answers with a redirect to
    the detail page of the cat, which carries no error. *)
Theorem add_feeding_invalid_drops (F : FormFields) (request : Request) (cat_id : Z) (w : World) :
  FeedingForm_clean F (POST_data request) = None ->
  (add_feeding F request cat_id w).2 = w
  /\ (is_Some (user request) ->
      add_feeding F request cat_id w = (inr (redirect (url_cat_detail cat_id)), w)).
Proof.
  intros Hinvalid. unfold add_feeding, login_required, add_feeding_body.
  destruct (user request) as [u|].
  - unfold bind, ret. rewrite Hinvalid. by destruct w.
  - split; [reflexivity|]. by intros [? ?].
Qed.

Lemma add_feeding_invalid_drops_witness :
  let request := Example.alice_post {[ "date" := "2023-04-05"; "meal" := "X" ]} in
  (add_feeding Example.fields request 1 Example.world).2 = Example.world
  /\ (is_Some (user request) ->
      add_feeding Example.fields request 1 Example.world
        = (inr (redirect (url_cat_detail 1)), Example.world)).
Proof.
  apply (add_feeding_invalid_drops Example.fields
           (Example.alice_post {[ "date" := "2023-04-05"; "meal" := "X" ]}) 1 Example.world).
  vm_compute. reflexivity.
Defined.

(** ** Toys of a cat *)

Lemma set_cat_toy_same (d : DB) (s : gset (Z * Z)) : s = cat_toy d -> set_cat_toy s d = d.
Proof. intros ->. by destruct d. Qed.

Lemma assoc_toy_linked (request : Request) (cat_id toy_id : Z) (w : World) :
  is_Some (user request) -> is_Some (cats (db w) !! cat_id) ->
  (cat_id, toy_id) ∈ cat_toy (db w) ->
  assoc_toy request cat_id toy_id w = (inr (redirect (url_cat_detail cat_id)), w).
Proof.
  intros [u Hu] [cat Hcat] Hin.
  unfold assoc_toy, assoc_toy_body, toy_add, login_required. rewrite Hu.
  unfold_view. rewrite Hcat. simpl. by rewrite decide_True.
Qed.

Lemma assoc_toy_unlinked (request : Request) (cat_id toy_id : Z) (w : World) :
  is_Some (user request) -> is_Some (cats (db w) !! cat_id) ->
  is_Some (toys (db w) !! toy_id) -> (cat_id, toy_id) ∉ cat_toy (db w) ->
  assoc_toy request cat_id toy_id w
  = (inr (redirect (url_cat_detail cat_id)),
     mkWorld (set_cat_toy ({[ (cat_id, toy_id) ]} ∪ cat_toy (db w)) (db w))
             (session w) (s3_objects w) (urandom16 w) (s3_accepts w)).
Proof.
  intros [u Hu] [cat Hcat] [toy Htoy] Hnotin.
  unfold assoc_toy, assoc_toy_body, toy_add, login_required. rewrite Hu.
  unfold_view. rewrite Hcat. simpl. rewrite decide_False by done.
  by rewrite Htoy.
Qed.

(** C7: for an existing cat and an existing toy, associating succeeds and
    links the toy, and associating a second time succeeds again and leaves
    everything as the first association left it. *)
Theorem assoc_toy_idempotent (request : Request) (cat_id toy_id : Z) (w : World) :
  is_Some (user request) -> is_Some (cats (db w) !! cat_id) ->
  is_Some (toys (db w) !! toy_id) ->
  let once := assoc_toy request cat_id toy_id w in
  let twice := assoc_toy request cat_id toy_id once.2 in
  once.1 = inr (redirect (url_cat_detail cat_id))
  /\ cat_toy (db once.2) = {[ (cat_id, toy_id) ]} ∪ cat_toy (db w)
  /\ twice = (inr (redirect (url_cat_detail cat_id)), once.2).
Proof.
  intros Hu Hcat Htoy once twice. subst once twice.
  destruct (decide ((cat_id, toy_id) ∈ cat_toy (db w))) as [Hin|Hnotin].
  - rewrite !(assoc_toy_linked request cat_id toy_id w) by done. simpl.
    rewrite (assoc_toy_linked request cat_id toy_id w) by done.
    split; [done|]. split; [|done].
    symmetry. by apply subseteq_union_1_L, singleton_subseteq_l.
  - rewrite (assoc_toy_unlinked request cat_id toy_id w) by done. simpl.
    split; [done|]. split; [done|].
    apply assoc_toy_linked; simpl; [done|done|set_solver].
Qed.

Lemma assoc_toy_idempotent_witness :
  let once := assoc_toy Example.alice_get 1 2 Example.world in
  let twice := assoc_toy Example.alice_get 1 2 once.2 in
  once.1 = inr (redirect (url_cat_detail 1))
  /\ cat_toy (db once.2) = {[ (1, 2) ]} ∪ cat_toy (db Example.world)
  /\ twice = (inr (redirect (url_cat_detail 1)), once.2).
Proof.
  apply (assoc_toy_idempotent Example.alice_get 1 2 Example.world);
    vm_compute; eauto.
Defined.

(** C8: for an existing cat, dissociating a toy that is not linked to it,
    whether or not a toy with that id exists, changes nothing and answers
    with the usual redirect; nothing is raised. *)
Theorem unassoc_toy_unlinked_noop (request : Request) (cat_id toy_id : Z) (w : World) :
  is_Some (user request) -> is_Some (cats (db w) !! cat_id) ->
  (cat_id, toy_id) ∉ cat_toy (db w) ->
  unassoc_toy request cat_id toy_id w = (inr (redirect (url_cat_detail cat_id)), w).
Proof.
  intros [u Hu] [cat Hcat] Hnotin.
  unfold unassoc_toy, unassoc_toy_body, toy_remove, login_required. rewrite Hu.
  unfold_view. rewrite Hcat. simpl.
  rewrite set_cat_toy_same; [by destruct w|].
  by apply difference_disjoint_L, disjoint_singleton_r.
Qed.

Lemma unassoc_toy_unlinked_noop_witness :
  unassoc_toy Example.alice_get 1 99 Example.world
  = (inr (redirect (url_cat_detail 1)), Example.world).
Proof.
  apply (unassoc_toy_unlinked_noop Example.alice_get 1 99 Example.world).
  - vm_compute; eauto.
  - vm_compute; eauto.
  - vm_compute. set_solver.
Defined.



(** ** Updating a cat *)

(** C9: whatever the request, [CatUpdate] leaves the name, the breed and
    the owner of the cat as they were, and leaves every other cat as it
    was; a valid submission by a logged-in user sets the description and
    the age to the submitted values. *)
Theorem CatUpdate_frame (F : FormFields) (request : Request) (pk : Z) (w : World) (cat : Cat) :
  cats (db w) !! pk = Some cat ->
  let w' := (CatUpdate F request pk w).2 in
  (exists cat', cats (db w') !! pk = Some cat'
     /\ cat_name cat' = cat_name cat
     /\ cat_breed cat' = cat_breed cat
     /\ cat_user cat' = cat_user cat
     /\ (forall description age,
           is_Some (user request) -> method request = POST ->
           CatUpdate_clean F (POST_data request) = Some (description, age) ->
           cat_description cat' = description /\ cat_age cat' = age))
  /\ (forall other, other ≠ pk -> cats (db w') !! other = cats (db w) !! other).
Proof.
  intros Hcat w'. subst w'.
  unfold CatUpdate, CatUpdate_dispatch, LoginRequiredMixin.
  destruct (user request) as [u|];
    [|simpl; split; [exists cat; repeat split; try done; by intros ? ? [? ?]|done]].
  unfold_view. rewrite Hcat.
  destruct (method request);
    [simpl; split; [exists cat; repeat split; done|done]|].
  destruct (CatUpdate_clean F (POST_data request)) as [[d a]|] eqn:Hclean; simpl.
  - split.
    + eexists. rewrite lookup_insert_eq. split; [reflexivity|]. simpl.
      repeat split; try done; congruence.
    + intros other Hne. by rewrite lookup_insert_ne.
  - split; [exists cat; repeat split; done|done].
Qed.

Lemma CatUpdate_frame_witness :
  let request :=
    Example.alice_post
      {[ "description" := "sleepy"; "age" := "4"; "name" := "Jerry"; "user" := "2" ]} in
  let w' := (CatUpdate Example.fields request 1 Example.world).2 in
  (exists cat', cats (db w') !! 1 = Some cat'
     /\ cat_name cat' = "Tom"
     /\ cat_breed cat' = "Tabby"
     /\ cat_user cat' = 1
     /\ (forall description age,
           is_Some (user request) -> method request = POST ->
           CatUpdate_clean Example.fields (POST_data request) = Some (description, age) ->
           cat_description cat' = description /\ cat_age cat' = age))
  /\ (forall other, other ≠ 1 -> cats (db w') !! other = cats (db Example.world) !! other).
Proof.
  apply (CatUpdate_frame Example.fields
           (Example.alice_post
              {[ "description" := "sleepy"; "age" := "4"; "name" := "Jerry"; "user" := "2" ]})
           1 Example.world (mkCat "Tom" "Tabby" "lazy" 3 1)).
  vm_compute. reflexivity.
Defined.

(** ** Signing up *)




(** ** Photos *)

Lemma add_photo_via_upload (attr : string) (request : Request) (cat_id : Z) (w : World)
  (f : UploadedFile) :
  FILES request !! "photo-file" = Some f -> file_truthy f = true -> s3_accepts w = true ->
  let key := object_key (Py.hex (Py.uuid4 (urandom16 w))) (file_name f) in
  let uploaded := mkWorld (db w) (session w) ({[ (BUCKET, key) ]} ∪ s3_objects w)
                          (urandom16 w) (s3_accepts w) in
  add_photo_via attr request cat_id w
  = (inr (redirect (url_cat_detail cat_id)),
     if String.eqb attr "objects" then
       match cats (db w) !! cat_id with
       | Some _ =>
           mkWorld (set_photos (<[next_pk (photos (db w)) := mkPhoto (photo_url_of key) cat_id]>
                                  (photos (db w))) (db w))
                   (session w) ({[ (BUCKET, key) ]} ∪ s3_objects w)
                   (urandom16 w) (s3_accepts w)
       | None => uploaded
       end
     else uploaded).
Proof.
  intros Hfile Htruthy Haccepts key uploaded. subst key uploaded.
  unfold add_photo_via, uuid4_hex, upload_fileobj, model_manager, Photo_create.
  rewrite Hfile, Htruthy. unfold_view. rewrite Haccepts.
  destruct (String.eqb attr "objects"); simpl; [|done].
  by destruct (cats (db w) !! cat_id).
Qed.

(** What the specification describes is what the view would do if it read
    the manager from [Photo.objects], as the other views do with
    [Cat.objects] and [Toy.objects]. *)
Lemma add_photo_via_objects_persists (request : Request) (cat_id : Z) (w : World)
  (f : UploadedFile) :
  FILES request !! "photo-file" = Some f -> file_truthy f = true -> s3_accepts w = true ->
  is_Some (cats (db w) !! cat_id) ->
  let key := object_key (Py.hex (Py.uuid4 (urandom16 w))) (file_name f) in
  photos (db (add_photo_via "objects" request cat_id w).2)
  = <[next_pk (photos (db w)) := mkPhoto (S3_BASE_URL ++ BUCKET ++ "/" ++ key) cat_id]>
      (photos (db w)).
Proof.
  intros Hfile Htruthy Haccepts [cat Hcat] key.
  rewrite (add_photo_via_upload "objects" request cat_id w f) by done.
  simpl. by rewrite Hcat.
Qed.

(** C1 on the code: when a file is present and the storage service
    accepts it, [add_photo] puts the object into the bucket and redirects,
    and the database, the photo table with it, is as it was: reading
    [Photo.object] raises and the handler of the [try] swallows it. *)
Theorem add_photo_persists_nothing (request : Request) (cat_id : Z) (w : World)
  (f : UploadedFile) :
  FILES request !! "photo-file" = Some f -> file_truthy f = true -> s3_accepts w = true ->
  let key := object_key (Py.hex (Py.uuid4 (urandom16 w))) (file_name f) in
  add_photo request cat_id w
  = (inr (redirect (url_cat_detail cat_id)),
     mkWorld (db w) (session w) ({[ (BUCKET, key) ]} ∪ s3_objects w)
             (urandom16 w) (s3_accepts w)).
Proof.
  intros Hfile Htruthy Haccepts key. unfold add_photo.
  by rewrite (add_photo_via_upload "object" request cat_id w f).
Qed.

Lemma add_photo_persists_nothing_witness :
  add_photo Example.alice_upload 1 Example.world
  = (inr (redirect (url_cat_detail 1)),
     mkWorld (db Example.world) (session Example.world)
             ({[ (BUCKET, "012345.png") ]} ∪ s3_objects Example.world)
             (urandom16 Example.world) (s3_accepts Example.world)).
Proof.
  exact (add_photo_persists_nothing Example.alice_upload 1 Example.world
           (mkFile "cat.png" [137; 80; 78; 71]) eq_refl eq_refl eq_refl).
Defined.

(** No request makes [add_photo] store a photo. *)
Lemma add_photo_db_unchanged (request : Request) (cat_id : Z) (w : World) :
  db (add_photo request cat_id w).2 = db w.
Proof.
  unfold add_photo, add_photo_via, uuid4_hex, upload_fileobj, model_manager.
  unfold_view.
  destruct (FILES request !! "photo-file") as [f|]; [|done].
  destruct (file_truthy f); [|done].
  by destruct (s3_accepts w).
Qed.

(** ** Access without a session *)

(** Every cat-scoped route other than the photo upload sends a request
    without a session to the login page and changes nothing. *)
Lemma guarded_routes_redirect_to_login
  (F : FormFields) (route : CatRoute) (request : Request) (w : World) :
  user request = None ->
  (forall cat_id, route ≠ route_add_photo cat_id) ->
  resolve F route request w = (inr (redirect url_login), w).
Proof.
  intros Hanon Hroute.
  destruct route; simpl;
    unfold cats_index, cat_detail, add_feeding, assoc_toy, unassoc_toy,
      CatCreate, CatUpdate, CatDelete, login_required, LoginRequiredMixin;
    rewrite ?Hanon; try reflexivity.
  by destruct (Hroute cat_id).
Qed.

(** [add_photo] does not look at the session. *)
Lemma add_photo_ignores_session (request : Request) (cat_id : Z) (w : World) (u : option Z) :
  add_photo (mkRequest (method request) u (POST_data request) (FILES request)) cat_id w
  = add_photo request cat_id w.
Proof. reflexivity. Qed.

(** C2 on the code: a photo upload sent without a session is not sent to
    the login page; the view runs, the file reaches the bucket, and the
    answer is the redirect to the detail page of the cat. *)
Theorem add_photo_anonymous_runs :
  user Example.anonymous_upload = None
  /\ resolve Example.fields (route_add_photo 1) Example.anonymous_upload Example.world
     = (inr (redirect (url_cat_detail 1)),
        mkWorld Example.database None {[ (BUCKET, "012345.png") ]}
                (urandom16 Example.world) true).
Proof.
  split; [reflexivity|]. unfold resolve, add_photo.
  rewrite (add_photo_via_upload "object" Example.anonymous_upload 1 Example.world
             (mkFile "cat.png" [137; 80; 78; 71])) by reflexivity.
  reflexivity.
Qed.

(** ** Object keys *)

Lemma append_nil (t : string) : "" ++ t = t.
Proof. reflexivity. Qed.

Lemma append_cons (a : ascii) (s t : string) : String a s ++ t = String a (s ++ t).
Proof. reflexivity. Qed.

Lemma append_assoc (s t u : string) : (s ++ t) ++ u = s ++ (t ++ u).
Proof.
  induction s as [|a s IH]; [by rewrite !append_nil|].
  by rewrite !append_cons, IH.
Qed.

Lemma length_append (s t : string) :
  String.length (s ++ t) = (String.length s + String.length t)%nat.
Proof.
  induction s as [|a s IH]; [by rewrite append_nil|].
  rewrite append_cons. simpl. by rewrite IH.
Qed.

Lemma drop_append (s t : string) : Py.drop (String.length s) (s ++ t) = t.
Proof.
  induction s as [|a s IH]; [rewrite append_nil; by destruct t|].
  rewrite append_cons. simpl. exact IH.
Qed.

Lemma take_append (s t : string) : Py.take (String.length s) (s ++ t) = s.
Proof.
  induction s as [|a s IH]; [rewrite append_nil; by destruct t|].
  rewrite append_cons. simpl. by rewrite IH.
Qed.

Lemma rfind_from_absent (c : ascii) (s : string) (i last : Z) :
  Py.contains c s = false -> Py.rfind_from c s i last = last.
Proof.
  revert i last. induction s as [|a s IH]; intros i last Hs; simpl in *; [done|].
  apply orb_false_iff in Hs as [Ha Hs]. rewrite Ha. by apply IH.
Qed.

Lemma rfind_from_last (c : ascii) (s t : string) (i last : Z) :
  Py.contains c t = false ->
  Py.rfind_from c (s ++ String c t) i last = i + Py.len s.
Proof.
  intros Ht. revert i last. induction s as [|a s IH]; intros i last.
  - rewrite append_nil. simpl.
    rewrite Ascii.eqb_refl, rfind_from_absent by done. unfold Py.len. simpl. lia.
  - rewrite append_cons. simpl. rewrite IH. unfold Py.len. simpl String.length. lia.
Qed.

(** The suffix appended to the token, for a name with a dot in it. *)
Lemma extension_of_dotted (stem ext : string) :
  Py.contains "." ext = false ->
  let name := stem ++ String "." ext in
  Py.slice_from name (Py.rfind "." name) = String "." ext.
Proof.
  intros Hext name. subst name. unfold Py.rfind.
  rewrite rfind_from_last by done.
  unfold Py.slice_from, Py.clamp, Py.len. rewrite length_append.
  replace (Z.to_nat _) with (String.length stem).
  - apply drop_append.
  - destruct (Z.ltb_spec (0 + Z.of_nat (String.length stem)) 0); lia.
Qed.

(** For a name without a dot [rfind] is [-1] and the slice is the last
    character of the name. *)
Lemma extension_of_dotless (stem : string) (a : ascii) :
  Py.contains "." (stem ++ String a "") = false ->
  let name := stem ++ String a "" in
  Py.slice_from name (Py.rfind "." name) = String a "".
Proof.
  intros Hname name. subst name. unfold Py.rfind.
  rewrite rfind_from_absent by done.
  unfold Py.slice_from, Py.clamp, Py.len. rewrite length_append. simpl String.length.
  replace (Z.to_nat _) with (String.length stem).
  - apply drop_append.
  - destruct (Z.ltb_spec (-1) 0); lia.
Qed.

Lemma hex_digits_acc (n : nat) (v : Z) (acc : string) :
  Py.hex_digits n v acc = Py.hex_digits n v "" ++ acc.
Proof.
  revert v acc. induction n as [|n IH]; intros v acc; simpl; [done|].
  rewrite IH, (IH _ (String _ "")). by rewrite append_assoc.
Qed.

Lemma length_hex_digits (n : nat) (v : Z) : String.length (Py.hex_digits n v "") = n.
Proof.
  revert v. induction n as [|n IH]; intros v; simpl; [done|].
  rewrite hex_digits_acc, length_append, IH. simpl. lia.
Qed.

Lemma hex_digits_split (n m : nat) (v : Z) (acc : string) :
  Py.hex_digits (n + m) v acc
  = Py.hex_digits n (v / 16 ^ Z.of_nat m) (Py.hex_digits m v acc).
Proof.
  revert v acc. induction m as [|m IH]; intros v acc.
  - rewrite Nat.add_0_r. simpl. by rewrite Z.div_1_r.
  - rewrite Nat.add_succ_r. simpl Py.hex_digits. rewrite IH.
    rewrite Z.div_div by lia. do 2 f_equal.
    rewrite Nat2Z.inj_succ, Z.pow_succ_r by lia. reflexivity.
Qed.

Lemma hexchar_inj (d d' : Z) :
  0 <= d < 16 -> 0 <= d' < 16 -> Py.hexchar d = Py.hexchar d' -> d = d'.
Proof.
  intros Hd Hd' Heq.
  assert (forall x, 0 <= x < 16 ->
            x = 0 \/ x = 1 \/ x = 2 \/ x = 3 \/ x = 4 \/ x = 5 \/ x = 6 \/ x = 7 \/ x = 8
            \/ x = 9 \/ x = 10 \/ x = 11 \/ x = 12 \/ x = 13 \/ x = 14 \/ x = 15) as Hcases
    by (intros; lia).
  destruct (Hcases d Hd) as [->|[->|[->|[->|[->|[->|[->|[->|[->|[->|[->|[->|[->|[->|[->| ->]]]]]]]]]]]]]]];
  destruct (Hcases d' Hd') as [->|[->|[->|[->|[->|[->|[->|[->|[->|[->|[->|[->|[->|[->|[->| ->]]]]]]]]]]]]]]];
  first [reflexivity | discriminate Heq].
Qed.

Lemma hex_digits_inj (n : nat) (v v' : Z) (acc acc' : string) :
  Py.hex_digits n v acc = Py.hex_digits n v' acc' ->
  v mod 16 ^ Z.of_nat n = v' mod 16 ^ Z.of_nat n /\ acc = acc'.
Proof.
  revert v v' acc acc'. induction n as [|n IH]; intros v v' acc acc' Heq.
  - simpl in *. by rewrite !Z.mod_1_r.
  - simpl in Heq. apply IH in Heq as [Hhigh Hlow].
    injection Hlow as Hchar ->. split; [|done].
    apply hexchar_inj in Hchar; [|by apply Z.mod_pos_bound..].
    rewrite Nat2Z.inj_succ, Z.pow_succ_r by lia.
    rewrite !(Z.rem_mul_r _ 16) by lia. by rewrite Hchar, Hhigh.
Qed.

(** The version and variant bits that [uuid4] fixes lie below bit 104. *)
Lemma uuid4_top_bits (r : Z) : Py.uuid4 r / 2 ^ 104 = r / 2 ^ 104.
Proof.
  rewrite <- !Z.shiftr_div_pow2 by lia. unfold Py.uuid4.
  rewrite Z.shiftr_lor, Z.shiftr_land, Z.shiftr_lor, Z.shiftr_land.
  change (Z.shiftr (Z.lnot (Z.shiftl 0xc000 48)) 104) with (-1).
  change (Z.shiftr (Z.lnot (Z.shiftl 0xf000 64)) 104) with (-1).
  change (Z.shiftr (Z.shiftl 0x8000 48) 104) with 0.
  change (Z.shiftr (Z.shiftl 4 76) 104) with 0.
  by rewrite !Z.land_m1_r, !Z.lor_0_r.
Qed.

(** The token is the six hexadecimal digits of the top 24 random bits. *)
Lemma token_top_bits (r : Z) : token r = Py.hex_digits 6 (r / 2 ^ 104) "".
Proof.
  unfold token, Py.slice_to, Py.clamp, Py.len, Py.hex.
  rewrite length_hex_digits.
  change (Z.to_nat _) with 6%nat.
  change 32%nat with (6 + 26)%nat.
  rewrite hex_digits_split, hex_digits_acc.
  rewrite <- (length_hex_digits 6 (Py.uuid4 r / 16 ^ Z.of_nat 26)) at 1.
  rewrite take_append.
  change (16 ^ Z.of_nat 26) with (2 ^ 104). by rewrite uuid4_top_bits.
Qed.

Lemma token_eq_iff (r r' : Z) :
  0 <= r < 2 ^ 128 -> 0 <= r' < 2 ^ 128 ->
  token r = token r' <-> r / 2 ^ 104 = r' / 2 ^ 104.
Proof.
  intros Hr Hr'. rewrite !token_top_bits. split; [|by intros ->].
  intros [Heq _]%hex_digits_inj.
  change (16 ^ Z.of_nat 6) with (2 ^ 24) in Heq.
  assert (forall x, 0 <= x < 2 ^ 128 -> 0 <= x / 2 ^ 104 < 2 ^ 24) as Htop.
  { intros x Hx. split; [apply Z.div_pos; lia|].
    apply Z.div_lt_upper_bound; [lia|]. change (2 ^ 104 * 2 ^ 24) with (2 ^ 128). lia. }
  by rewrite !Z.mod_small in Heq by auto.
Qed.

Example uuid4_hex_example :
  Py.hex (Py.uuid4 0x0123456789abcdef0123456789abcdef) = "0123456789ab4def8123456789abcdef".
Proof. reflexivity. Qed.

Example object_key_dotted :
  object_key "0123456789ab4def8123456789abcdef" "cat.tar.gz" = "012345.gz".
Proof. reflexivity. Qed.

Example object_key_dotless :
  object_key "0123456789ab4def8123456789abcdef" "catpic" = "012345c".
Proof. reflexivity. Qed.

Example tokens_collide :
  token 0x0123456789abcdef0123456789abcdef = token 0x012345ffffffffffffffffffffffffff.
Proof. reflexivity. Qed.

(** There is no injection of [0..m] into [0..m-1]. *)
Lemma no_injection_into_smaller (m : Z) (g : Z -> Z) :
  0 <= m ->
  (forall a, 0 <= a <= m -> 0 <= g a < m) ->
  ~ (forall a b, 0 <= a <= m -> 0 <= b <= m -> g a = g b -> a = b).
Proof.
  intros Hm Hrange Hinj.
  assert (NoDup (g <$> seqZ 0 (m + 1))) as Hnodup.
  { apply NoDup_fmap_2_strong; [|apply NoDup_seqZ].
    intros x y Hx%elem_of_seqZ Hy%elem_of_seqZ. apply Hinj; lia. }
  assert (g <$> seqZ 0 (m + 1) ⊆+ seqZ 0 m) as Hsub.
  { apply NoDup_submseteq; [done|].
    intros x [a [-> Ha%elem_of_seqZ]]%list_elem_of_fmap.
    apply elem_of_seqZ. specialize (Hrange a). lia. }
  apply submseteq_length in Hsub.
  rewrite length_fmap, !length_seqZ in Hsub. lia.
Qed.

(** C3 as the specification words it fails: six hexadecimal digits cannot
    tell [2^48] draws apart. *)
Lemma token_lacks_48_bits : ~ token_carries_bits 48.
Proof.
  intros [draw [Hrange Hinj]].
  assert (forall a, 0 <= a <= 2 ^ 24 -> 0 <= a < 2 ^ 48) as Hsmall by lia.
  apply (no_injection_into_smaller (2 ^ 24) (fun a => draw a / 2 ^ 104)); [lia| |].
  - intros a Ha. specialize (Hrange a (Hsmall a Ha)).
    split; [apply Z.div_pos; lia|].
    apply Z.div_lt_upper_bound; [lia|]. change (2 ^ 104 * 2 ^ 24) with (2 ^ 128). lia.
  - intros a b Ha Hb Heq. apply Hinj; [auto..|].
    by rewrite !token_top_bits, Heq.
Qed.

(** C3, as the code has it: the key is a token of six hexadecimal digits,
    the top 24 of the random bits, so that two draws give the same token
    exactly when they agree on those 24 bits, followed, for a file name
    with a dot in it, by the name from its last dot onward. *)
Theorem object_key_shape (r r' : Z) (stem ext : string) :
  0 <= r < 2 ^ 128 -> 0 <= r' < 2 ^ 128 ->
  Py.contains "." ext = false ->
  object_key (Py.hex (Py.uuid4 r)) (stem ++ "." ++ ext) = token r ++ "." ++ ext
  /\ String.length (token r) = 6%nat
  /\ token r = Py.hex_digits 6 (r / 2 ^ 104) ""
  /\ (token r = token r' <-> r / 2 ^ 104 = r' / 2 ^ 104)
  /\ token_carries_bits 24.
Proof.
  intros Hr Hr' Hext. split; [|split; [|split; [|split]]].
  - unfold object_key. fold (token r). f_equal.
    apply (extension_of_dotted stem ext Hext).
  - rewrite token_top_bits. apply length_hex_digits.
  - apply token_top_bits.
  - by apply token_eq_iff.
  - exists (fun a => a * 2 ^ 104). split.
    + intros a Ha. change (2 ^ 128) with (2 ^ 24 * 2 ^ 104). nia.
    + intros a b Ha Hb Heq. rewrite !token_top_bits in Heq.
      apply hex_digits_inj in Heq as [Heq _].
      rewrite !Z.div_mul in Heq by lia.
      change (16 ^ Z.of_nat 6) with (2 ^ 24) in Heq.
      by rewrite !Z.mod_small in Heq by lia.
Qed.

Lemma object_key_shape_witness :
  object_key (Py.hex (Py.uuid4 (urandom16 Example.world))) ("cat.tar" ++ "." ++ "gz")
    = token (urandom16 Example.world) ++ "." ++ "gz"
  /\ String.length (token (urandom16 Example.world)) = 6%nat
  /\ token (urandom16 Example.world)
     = Py.hex_digits 6 (urandom16 Example.world / 2 ^ 104) ""
  /\ (token (urandom16 Example.world) = token 0
      <-> urandom16 Example.world / 2 ^ 104 = 0 / 2 ^ 104)
  /\ token_carries_bits 24.
Proof.
  apply (object_key_shape (urandom16 Example.world) 0 "cat.tar" "gz").
  - vm_compute. split; [discriminate|reflexivity].
  - vm_compute. split; [discriminate|reflexivity].
  - reflexivity.
Defined.

(** * Further properties of the views *)

(** ** The detail page *)

Lemma elem_of_toy_ids_of (cat_id toy_id : Z) (d : DB) :
  toy_id ∈ toy_ids_of cat_id d <-> (cat_id, toy_id) ∈ cat_toy d.
Proof.
  unfold toy_ids_of. rewrite elem_of_map. split.
  - intros [[c t] [-> [Hc Hin]%elem_of_filter]]. simpl in *. by subst c.
  - intros Hin. exists (cat_id, toy_id). split; [done|]. by apply elem_of_filter.
Qed.

Lemma cat_detail_eval (request : Request) (cat_id : Z) (w : World) (cat : Cat) :
  is_Some (user request) -> cats (db w) !! cat_id = Some cat ->
  cat_detail request cat_id w
  = (inr (render "cats/detail.html"
            (ctx_detail (cat_id, cat) Unbound
               (map_to_list (filter (fun kt => kt.1 ∉ toy_ids_of cat_id (db w))
                               (toys (db w)))))), w).
Proof.
  intros [u Hu] Hcat. unfold cat_detail, cat_detail_body, Toy_objects_exclude.
  unfold login_required. rewrite Hu. unfold_view. by rewrite Hcat.
Qed.

(** The detail page of an existing cat, for any logged-in user whether or
    not the cat is theirs: the cat, an empty feeding form, and exactly the
    toys that are not linked to the cat; nothing is changed. *)
Theorem cat_detail_offers_unlinked_toys (request : Request) (cat_id : Z) (w : World) (cat : Cat) :
  is_Some (user request) -> cats (db w) !! cat_id = Some cat ->
  exists offered : list (Z * Toy),
    cat_detail request cat_id w
    = (inr (render "cats/detail.html" (ctx_detail (cat_id, cat) Unbound offered)), w)
    /\ forall toy_id toy,
         (toy_id, toy) ∈ offered
         <-> toys (db w) !! toy_id = Some toy /\ (cat_id, toy_id) ∉ cat_toy (db w).
Proof.
  intros Hu Hcat. eexists. split; [by apply cat_detail_eval|].
  intros toy_id toy. rewrite elem_of_map_to_list, map_lookup_filter_Some. simpl.
  by rewrite elem_of_toy_ids_of.
Qed.

Lemma cat_detail_offers_unlinked_toys_witness :
  exists offered : list (Z * Toy),
    cat_detail (mkRequest GET (Some 2) ∅ ∅) 1 Example.world
    = (inr (render "cats/detail.html"
              (ctx_detail (1, mkCat "Tom" "Tabby" "lazy" 3 1) Unbound offered)),
       Example.world)
    /\ forall toy_id toy,
         (toy_id, toy) ∈ offered
         <-> toys (db Example.world) !! toy_id = Some toy
             /\ (1, toy_id) ∉ cat_toy (db Example.world).
Proof.
  apply (cat_detail_offers_unlinked_toys (mkRequest GET (Some 2) ∅ ∅) 1 Example.world
           (mkCat "Tom" "Tabby" "lazy" 3 1)).
  - vm_compute; eauto.
  - vm_compute; reflexivity.
Defined.

(** ** A cat that does not exist *)

(** The function views look the cat up with [Cat.objects.get] and do not
    catch its failure: for a cat id that is not stored, the detail page and
    both toy views raise [DoesNotExist] and change nothing. *)
Theorem missing_cat_raises_DoesNotExist (request : Request) (cat_id toy_id : Z) (w : World) :
  is_Some (user request) -> cats (db w) !! cat_id = None ->
  cat_detail request cat_id w = (inl DoesNotExist, w)
  /\ assoc_toy request cat_id toy_id w = (inl DoesNotExist, w)
  /\ unassoc_toy request cat_id toy_id w = (inl DoesNotExist, w).
Proof.
  intros [u Hu] Hcat.
  unfold cat_detail, cat_detail_body, assoc_toy, assoc_toy_body,
    unassoc_toy, unassoc_toy_body, login_required.
  rewrite Hu. unfold_view. by rewrite Hcat.
Qed.

Lemma missing_cat_raises_DoesNotExist_witness :
  cat_detail Example.alice_get 7 Example.world = (inl DoesNotExist, Example.world)
  /\ assoc_toy Example.alice_get 7 1 Example.world = (inl DoesNotExist, Example.world)
  /\ unassoc_toy Example.alice_get 7 1 Example.world = (inl DoesNotExist, Example.world).
Proof.
  apply (missing_cat_raises_DoesNotExist Example.alice_get 7 1 Example.world).
  - vm_compute; eauto.
  - vm_compute; reflexivity.
Defined.

(** The class-based views look the cat up with [get_object], which turns
    the failure into [Http404]: updating or deleting a cat that is not
    stored raises it, whatever the method, and changes nothing. *)
Theorem missing_cat_raises_Http404 (F : FormFields) (request : Request) (pk : Z) (w : World) :
  is_Some (user request) -> cats (db w) !! pk = None ->
  CatUpdate F request pk w = (inl Http404, w)
  /\ CatDelete request pk w = (inl Http404, w).
Proof.
  intros [u Hu] Hcat.
  unfold CatUpdate, CatUpdate_dispatch, CatDelete, CatDelete_dispatch, LoginRequiredMixin.
  rewrite Hu. unfold_view. by rewrite Hcat.
Qed.

Lemma missing_cat_raises_Http404_witness :
  CatUpdate Example.fields (Example.alice_post ∅) 7 Example.world = (inl Http404, Example.world)
  /\ CatDelete (Example.alice_post ∅) 7 Example.world = (inl Http404, Example.world).
Proof.
  apply (missing_cat_raises_Http404 Example.fields (Example.alice_post ∅) 7 Example.world).
  - vm_compute; eauto.
  - vm_compute; reflexivity.
Defined.

(** ** Linking and unlinking toys *)

Lemma unassoc_toy_eval (request : Request) (cat_id toy_id : Z) (w : World) :
  is_Some (user request) -> is_Some (cats (db w) !! cat_id) ->
  unassoc_toy request cat_id toy_id w
  = (inr (redirect (url_cat_detail cat_id)),
     mkWorld (set_cat_toy (cat_toy (db w) ∖ {[ (cat_id, toy_id) ]}) (db w))
             (session w) (s3_objects w) (urandom16 w) (s3_accepts w)).
Proof.
  intros [u Hu] [cat Hcat].
  unfold unassoc_toy, unassoc_toy_body, toy_remove, login_required. rewrite Hu.
  unfold_view. by rewrite Hcat.
Qed.

(** For an existing cat, unlinking removes the one link and no other, and
    unlinking again changes nothing further. *)
Theorem unassoc_toy_removes_one_link (request : Request) (cat_id toy_id : Z) (w : World) :
  is_Some (user request) -> is_Some (cats (db w) !! cat_id) ->
  let once := unassoc_toy request cat_id toy_id w in
  once.1 = inr (redirect (url_cat_detail cat_id))
  /\ (forall c t, (c, t) ∈ cat_toy (db once.2)
                  <-> (c, t) ∈ cat_toy (db w) /\ (c, t) ≠ (cat_id, toy_id))
  /\ unassoc_toy request cat_id toy_id once.2 = once.
Proof.
  intros Hu Hcat once. subst once.
  rewrite (unassoc_toy_eval request cat_id toy_id w) by done. simpl.
  split; [done|]. split.
  - intros c t. rewrite elem_of_difference, elem_of_singleton. done.
  - rewrite unassoc_toy_eval by done. simpl. unfold set_cat_toy. simpl.
    replace (cat_toy (db w) ∖ {[(cat_id, toy_id)]} ∖ {[(cat_id, toy_id)]})
      with (cat_toy (db w) ∖ {[(cat_id, toy_id)]}); [done|].
    symmetry. apply difference_disjoint_L, disjoint_singleton_r.
    rewrite elem_of_difference, elem_of_singleton. tauto.
Qed.

Lemma unassoc_toy_removes_one_link_witness :
  let once := unassoc_toy Example.alice_get 1 1 Example.world in
  once.1 = inr (redirect (url_cat_detail 1))
  /\ (forall c t, (c, t) ∈ cat_toy (db once.2)
                  <-> (c, t) ∈ cat_toy (db Example.world) /\ (c, t) ≠ (1, 1))
  /\ unassoc_toy Example.alice_get 1 1 once.2 = once.
Proof.
  apply (unassoc_toy_removes_one_link Example.alice_get 1 1 Example.world);
    vm_compute; eauto.
Defined.

(** Linking a toy that was not linked and then unlinking it gives back the
    world as it was. *)
Theorem assoc_then_unassoc_restores (request : Request) (cat_id toy_id : Z) (w : World) :
  is_Some (user request) -> is_Some (cats (db w) !! cat_id) ->
  is_Some (toys (db w) !! toy_id) -> (cat_id, toy_id) ∉ cat_toy (db w) ->
  unassoc_toy request cat_id toy_id (assoc_toy request cat_id toy_id w).2
  = (inr (redirect (url_cat_detail cat_id)), w).
Proof.
  intros Hu Hcat Htoy Hnotin.
  rewrite (assoc_toy_unlinked request cat_id toy_id w) by done. simpl.
  rewrite unassoc_toy_eval by done. simpl. f_equal.
  destruct w as [d ? ? ? ?]. simpl in *. f_equal.
  destruct d as [? ? ? ? links ?]. unfold set_cat_toy. simpl in *. f_equal.
  apply set_eq. intros link.
  rewrite elem_of_difference, elem_of_union, elem_of_singleton.
  split; [by intros [[->|Hlink] Hne]|].
  intros Hlink. split; [by right|by intros ->].
Qed.

Lemma assoc_then_unassoc_restores_witness :
  unassoc_toy Example.alice_get 1 2 (assoc_toy Example.alice_get 1 2 Example.world).2
  = (inr (redirect (url_cat_detail 1)), Example.world).
Proof.
  apply (assoc_then_unassoc_restores Example.alice_get 1 2 Example.world).
  - vm_compute; eauto.
  - vm_compute; eauto.
  - vm_compute; eauto.
  - vm_compute. set_solver.
Defined.

(** A toy that is not linked to a cat is offered on its detail page; once
    linked it is no longer offered, and every other offer stays. *)
Theorem assoc_toy_withdraws_offer
  (request : Request) (cat_id toy_id : Z) (w : World) (cat : Cat) (toy : Toy) :
  is_Some (user request) -> cats (db w) !! cat_id = Some cat ->
  toys (db w) !! toy_id = Some toy -> (cat_id, toy_id) ∉ cat_toy (db w) ->
  let w1 := (assoc_toy request cat_id toy_id w).2 in
  exists before after : list (Z * Toy),
    cat_detail request cat_id w
    = (inr (render "cats/detail.html" (ctx_detail (cat_id, cat) Unbound before)), w)
    /\ cat_detail request cat_id w1
       = (inr (render "cats/detail.html" (ctx_detail (cat_id, cat) Unbound after)), w1)
    /\ (toy_id, toy) ∈ before
    /\ forall t row, (t, row) ∈ after <-> (t, row) ∈ before /\ t ≠ toy_id.
Proof.
  intros Hu Hcat Htoy Hnotin w1. subst w1.
  rewrite (assoc_toy_unlinked request cat_id toy_id w) by eauto. simpl.
  do 2 eexists. split; [by apply cat_detail_eval|].
  split; [by apply cat_detail_eval|]. simpl. split.
  - rewrite elem_of_map_to_list, map_lookup_filter_Some. simpl.
    by rewrite elem_of_toy_ids_of.
  - intros t row. rewrite !elem_of_map_to_list, !map_lookup_filter_Some. simpl.
    rewrite !elem_of_toy_ids_of. simpl.
    rewrite elem_of_union, elem_of_singleton. split.
    + intros [Hrow Hlink]. repeat split; [done| |].
      * intros Hin. apply Hlink. by right.
      * intros ->. apply Hlink. by left.
    + intros [[Hrow Hlink] Hne]. split; [done|].
      intros [Heq|Hin]; [|done]. by injection Heq.
Qed.

Lemma assoc_toy_withdraws_offer_witness :
  let w1 := (assoc_toy Example.alice_get 1 2 Example.world).2 in
  exists before after : list (Z * Toy),
    cat_detail Example.alice_get 1 Example.world
    = (inr (render "cats/detail.html"
              (ctx_detail (1, mkCat "Tom" "Tabby" "lazy" 3 1) Unbound before)), Example.world)
    /\ cat_detail Example.alice_get 1 w1
       = (inr (render "cats/detail.html"
                 (ctx_detail (1, mkCat "Tom" "Tabby" "lazy" 3 1) Unbound after)), w1)
    /\ (2, mkToy "Mouse" "grey") ∈ before
    /\ forall t row, (t, row) ∈ after <-> (t, row) ∈ before /\ t ≠ 2.
Proof.
  apply (assoc_toy_withdraws_offer Example.alice_get 1 2 Example.world
           (mkCat "Tom" "Tabby" "lazy" 3 1) (mkToy "Mouse" "grey")).
  - vm_compute; eauto.
  - vm_compute; reflexivity.
  - vm_compute; reflexivity.
  - vm_compute. set_solver.
Defined.

(** ** Photo uploads that store nothing *)

(** Without a file under [photo-file], or with one whose name is empty,
    [add_photo] touches neither the bucket nor the database and redirects
    to the detail page. *)
Theorem add_photo_without_file (request : Request) (cat_id : Z) (w : World) :
  (forall f, FILES request !! "photo-file" = Some f -> file_name f = "") ->
  add_photo request cat_id w = (inr (redirect (url_cat_detail cat_id)), w).
Proof.
  intros Hfile. unfold add_photo, add_photo_via.
  destruct (FILES request !! "photo-file") as [f|] eqn:Hf; [|done].
  unfold file_truthy. by rewrite (Hfile f eq_refl).
Qed.

Lemma add_photo_without_file_witness :
  add_photo (mkRequest POST (Some 1) ∅ {[ "photo-file" := mkFile "" [] ]}) 1 Example.world
  = (inr (redirect (url_cat_detail 1)), Example.world).
Proof.
  apply (add_photo_without_file
           (mkRequest POST (Some 1) ∅ {[ "photo-file" := mkFile "" [] ]}) 1 Example.world).
  intros f Hf. vm_compute in Hf. by injection Hf as <-.
Defined.

(** When the storage service refuses the upload, the exception is caught:
    nothing is stored anywhere and the answer is the same redirect. *)
Theorem add_photo_upload_refused (request : Request) (cat_id : Z) (w : World) :
  s3_accepts w = false ->
  add_photo request cat_id w = (inr (redirect (url_cat_detail cat_id)), w).
Proof.
  intros Hrefused. unfold add_photo, add_photo_via, uuid4_hex, upload_fileobj.
  unfold_view.
  destruct (FILES request !! "photo-file") as [f|]; [|done].
  destruct (file_truthy f); [|done]. by rewrite Hrefused.
Qed.

Lemma add_photo_upload_refused_witness :
  let offline := mkWorld Example.database (Some 1) ∅ 7 false in
  add_photo Example.alice_upload 1 offline = (inr (redirect (url_cat_detail 1)), offline).
Proof.
  apply (add_photo_upload_refused Example.alice_upload 1
           (mkWorld Example.database (Some 1) ∅ 7 false)).
  reflexivity.
Defined.


(** ** The shape of every object key *)

Lemma contains_split (c : ascii) (s : string) :
  Py.contains c s = true ->
  exists stem ext, s = stem ++ String c ext /\ Py.contains c ext = false.
Proof.
  induction s as [|a s IH]; simpl; [discriminate|].
  destruct (Py.contains c s) eqn:Hrest.
  - intros _. destruct (IH eq_refl) as (stem & ext & -> & Hext).
    exists (String a stem), ext. by rewrite append_cons.
  - rewrite orb_false_r. intros ->%Ascii.eqb_eq.
    exists "", s. by rewrite append_nil.
Qed.

Lemma nonempty_last (s : string) :
  s ≠ "" -> exists stem a, s = stem ++ String a "".
Proof.
  induction s as [|a s IH]; [done|]. intros _.
  destruct s as [|b s].
  - exists "", a. by rewrite append_nil.
  - destruct IH as (stem & z & Hs); [done|].
    exists (String a stem), z. by rewrite append_cons, <- Hs.
Qed.

(** What [add_photo] appends to the token, for every file name: nothing
    for the empty name, the last character for a name without a dot, and
    otherwise the name from its last dot onward. *)
Theorem object_key_extension_cases (hex name : string) :
  exists ext : string,
    object_key hex name = Py.slice_to hex 6 ++ ext
    /\ ((name = "" /\ ext = "")
        \/ (exists stem a, name = stem ++ String a ""
              /\ Py.contains "." name = false /\ ext = String a "")
        \/ (exists stem rest, name = stem ++ "." ++ rest
              /\ Py.contains "." rest = false /\ ext = "." ++ rest)).
Proof.
  exists (Py.slice_from name (Py.rfind "." name)). split; [done|].
  destruct (Py.contains "." name) eqn:Hdot.
  - right. right. destruct (contains_split _ _ Hdot) as (stem & rest & -> & Hrest).
    exists stem, rest. split; [reflexivity|]. split; [done|].
    apply (extension_of_dotted stem rest Hrest).
  - destruct (decide (name = "")) as [->|Hne]; [by left|].
    right. left. destruct (nonempty_last name Hne) as (stem & a & ->).
    exists stem, a. split; [reflexivity|]. split; [done|].
    by apply (extension_of_dotless stem a).
Qed.

Lemma hexchar_is_hex (d : Z) : Py.contains (Py.hexchar d) "0123456789abcdef" = true.
Proof.
  destruct d as [|p|p]; [reflexivity| |reflexivity].
  do 4 (destruct p as [p|p|]; try reflexivity).
Qed.

Lemma hex_digits_are_hex (n : nat) (v : Z) (acc : string) (a : ascii) :
  Py.contains a (Py.hex_digits n v acc) = true ->
  Py.contains a "0123456789abcdef" = true \/ Py.contains a acc = true.
Proof.
  revert v acc. induction n as [|n IH]; intros v acc; simpl; [by right|].
  intros [Hhex|Hacc]%IH; [by left|].
  simpl in Hacc. apply orb_true_iff in Hacc as [Heq%Ascii.eqb_eq|Hacc]; [|by right].
  left. subst a. apply hexchar_is_hex.
Qed.

(** Whatever the random bytes, the token is six characters long and each
    of them is a lower-case hexadecimal digit. *)
Theorem token_is_six_hex_digits (r : Z) :
  String.length (token r) = 6%nat
  /\ forall a, Py.contains a (token r) = true -> Py.contains a "0123456789abcdef" = true.
Proof.
  rewrite token_top_bits. split; [apply length_hex_digits|].
  intros a [Hhex|Hnone]%hex_digits_are_hex; [done|discriminate].
Qed.

(** ** Signing up, and what it leaves alone *)

(** Whatever the request, [signup] keeps every stored user as it is and
    changes no table but the user table, nor the bucket; on a [GET] it
    changes nothing at all and shows the empty form without a message. *)
Theorem signup_frame (F : FormFields) (request : Request) (w : World) :
  let w' := (signup F request w).2 in
  (forall uid u, users (db w) !! uid = Some u -> users (db w') !! uid = Some u)
  /\ cats (db w') = cats (db w)
  /\ feedings (db w') = feedings (db w)
  /\ toys (db w') = toys (db w)
  /\ cat_toy (db w') = cat_toy (db w)
  /\ photos (db w') = photos (db w)
  /\ s3_objects w' = s3_objects w
  /\ (method request = GET ->
      signup F request w
      = (inr (render "registration/signup.html" (ctx_signup Unbound "")), w)).
Proof.
  unfold signup, login. unfold_view.
  destruct (method request); [by repeat split|].
  destruct (UserCreationForm_clean F (users (db w)) (POST_data request)) as [new_user|];
    simpl; [|by repeat split].
  repeat split; try done.
  intros uid u Hu. rewrite lookup_insert_ne; [done|].
  intros <-. by rewrite next_pk_fresh in Hu.
Qed.

Lemma cats_index_eval (request : Request) (w : World) (u : Z) :
  user request = Some u ->
  cats_index request w
  = (inr (render "cats/index.html"
            (ctx_cats (map_to_list (filter (fun kc => cat_user kc.2 = u) (cats (db w)))))),
     w).
Proof. intros Hu. unfold cats_index, login_required, cats_index_body. by rewrite Hu. Qed.

(** When every cat belongs to a stored user, the user that a valid sign-up
    has just created and logged in finds an empty cat listing. *)
Theorem signup_then_index_is_empty
  (F : FormFields) (request next : Request) (w : World) (new_user : User) :
  method request = POST ->
  UserCreationForm_clean F (users (db w)) (POST_data request) = Some new_user ->
  (forall pk cat, cats (db w) !! pk = Some cat -> is_Some (users (db w) !! cat_user cat)) ->
  let w' := (signup F request w).2 in
  user next = session w' ->
  cats_index next w' = (inr (render "cats/index.html" (ctx_cats [])), w').
Proof.
  intros Hpost Hvalid Howners w' Hnext. subst w'.
  unfold signup, login in *. unfold_view. rewrite Hpost, Hvalid in *. simpl in *.
  rewrite (cats_index_eval next _ _ Hnext). simpl.
  replace (filter (fun kc : Z * Cat => cat_user kc.2 = next_pk (users (db w))) (cats (db w)))
    with (∅ : gmap Z Cat); [by rewrite map_to_list_empty|].
  symmetry. apply map_empty. intros pk. apply map_lookup_filter_None.
  right. intros cat Hcat Howner. simpl in Howner.
  destruct (Howners pk cat Hcat) as [u Hu].
  rewrite Howner, next_pk_fresh in Hu. discriminate.
Qed.

Lemma signup_then_index_is_empty_witness :
  let w' := (signup Example.fields Example.good_signup Example.world).2 in
  cats_index (mkRequest GET (Some 3) ∅ ∅) w'
  = (inr (render "cats/index.html" (ctx_cats [])), w').
Proof.
  apply (signup_then_index_is_empty Example.fields Example.good_signup
           (mkRequest GET (Some 3) ∅ ∅) Example.world (mkUser "carol" "s3cret")).
  - reflexivity.
  - vm_compute. reflexivity.
  - intros pk cat Hcat.
    assert (cat_user cat = 1 \/ cat_user cat = 2) as [-> | ->]; [|vm_compute; eauto..].
    change (cats (db Example.world))
      with (<[1 := mkCat "Tom" "Tabby" "lazy" 3 1]>
              (<[2 := mkCat "Rex" "Siamese" "loud" 4 2]> (∅ : gmap Z Cat))) in Hcat.
    apply lookup_insert_Some in Hcat as [[_ <-]|[_ Hcat]]; [by left|].
    apply lookup_insert_Some in Hcat as [[_ <-]|[_ Hcat]]; [by right|].
    by rewrite lookup_empty in Hcat.
  - vm_compute. reflexivity.
Defined.

(** ** Creating a cat *)





(** ** Submissions that do not validate *)



(** ** Deleting a cat *)

(** A [POST] to [CatDelete] by any logged-in user, owner or not, removes
    the cat and with it the feedings, photos and toy links that refer to
    it; every other row, and the user and toy tables, stay as they are, and
    the answer is the redirect to [/cats/]. *)
Theorem CatDelete_post (request : Request) (pk : Z) (w : World) :
  is_Some (user request) -> method request = POST -> is_Some (cats (db w) !! pk) ->
  let result := CatDelete request pk w in
  let w' := result.2 in
  result.1 = inr (redirect (url_path "/cats/"))
  /\ cats (db w') !! pk = None
  /\ (forall other, other ≠ pk -> cats (db w') !! other = cats (db w) !! other)
  /\ (forall k f, feedings (db w') !! k = Some f
        <-> feedings (db w) !! k = Some f /\ feeding_cat_id f ≠ pk)
  /\ (forall k p, photos (db w') !! k = Some p
        <-> photos (db w) !! k = Some p /\ photo_cat_id p ≠ pk)
  /\ (forall c t, (c, t) ∈ cat_toy (db w') <-> (c, t) ∈ cat_toy (db w) /\ c ≠ pk)
  /\ users (db w') = users (db w)
  /\ toys (db w') = toys (db w)
  /\ session w' = session w
  /\ s3_objects w' = s3_objects w.
Proof.
  intros [u Hu] Hpost [cat Hcat] result w'. subst w' result.
  unfold CatDelete, CatDelete_dispatch, LoginRequiredMixin.
  rewrite Hu, Hpost. unfold_view. rewrite Hcat. simpl.
  split; [done|]. split; [apply lookup_delete_eq|].
  split; [by intros other Hne; apply lookup_delete_ne|].
  split; [intros k f; apply map_lookup_filter_Some|].
  split; [intros k p; apply map_lookup_filter_Some|].
  split; [|done].
  intros c t. rewrite elem_of_filter. simpl. tauto.
Qed.

Lemma CatDelete_post_witness :
  let result := CatDelete (mkRequest POST (Some 2) ∅ ∅) 1 Example.world in
  let w' := result.2 in
  result.1 = inr (redirect (url_path "/cats/"))
  /\ cats (db w') !! 1 = None
  /\ (forall other, other ≠ 1 -> cats (db w') !! other = cats (db Example.world) !! other)
  /\ (forall k f, feedings (db w') !! k = Some f
        <-> feedings (db Example.world) !! k = Some f /\ feeding_cat_id f ≠ 1)
  /\ (forall k p, photos (db w') !! k = Some p
        <-> photos (db Example.world) !! k = Some p /\ photo_cat_id p ≠ 1)
  /\ (forall c t, (c, t) ∈ cat_toy (db w') <-> (c, t) ∈ cat_toy (db Example.world) /\ c ≠ 1)
  /\ users (db w') = users (db Example.world)
  /\ toys (db w') = toys (db Example.world)
  /\ session w' = session Example.world
  /\ s3_objects w' = s3_objects Example.world.
Proof.
  apply (CatDelete_post (mkRequest POST (Some 2) ∅ ∅) 1 Example.world).
  - vm_compute; eauto.
  - reflexivity.
  - vm_compute; eauto.
Defined.

(** ** What the cat-scoped routes never do *)

Ltac unfold_routes :=
  unfold resolve, cats_index, cats_index_body, cat_detail, cat_detail_body,
    add_feeding, add_feeding_body, assoc_toy, assoc_toy_body, unassoc_toy,
    unassoc_toy_body, add_photo, add_photo_via, CatCreate, CatCreate_dispatch,
    CatUpdate, CatUpdate_dispatch, CatDelete, CatDelete_dispatch,
    Cat_objects_filter_user, Toy_objects_exclude, toy_add, toy_remove, Feeding_save,
    uuid4_hex, upload_fileobj, model_manager, Photo_create in *.

Ltac split_cases :=
  repeat match goal with
         | |- context [match ?x with _ => _ end] =>
             lazymatch x with
             | context [match _ with _ => _ end] => fail
             | _ => destruct x eqn:?; simpl in *
             end
         end.


(** A [GET] to the listing, the detail page or one of the three editing
    views changes nothing. *)
Theorem GET_changes_nothing
  (F : FormFields) (route : CatRoute) (request : Request) (w : World) :
  method request = GET ->
  route = route_cats_index \/ (exists cat_id, route = route_cat_detail cat_id)
  \/ route = route_cat_create \/ (exists pk, route = route_cat_update pk)
  \/ (exists pk, route = route_cat_delete pk) ->
  (resolve F route request w).2 = w.
Proof.
  intros Hget [->|[[cat_id ->]|[->|[[pk ->]|[pk ->]]]]];
    unfold_routes; unfold_view; rewrite ?Hget; simpl; split_cases; done.
Qed.

Lemma GET_changes_nothing_witness :
  (resolve Example.fields (route_cat_delete 1) Example.alice_get Example.world).2
  = Example.world.
Proof.
  apply (GET_changes_nothing Example.fields (route_cat_delete 1) Example.alice_get
           Example.world).
  - reflexivity.
  - do 4 right. by exists 1.
Defined.



Lemma guarded_routes_redirect_to_login_witness :
  resolve Example.fields (route_cat_delete 1) (mkRequest POST None ∅ ∅) Example.world
  = (inr (redirect url_login), Example.world).
Proof.
  apply (guarded_routes_redirect_to_login Example.fields (route_cat_delete 1)
           (mkRequest POST None ∅ ∅) Example.world).
  - reflexivity.
  - discriminate.
Defined.
